(** * GoogleChrome plugin: session lifecycle and command/event protocol

    Shallow embedding of [eventghost/plugins/GoogleChrome/__init__.py]:
    the [Server] class (session tracking, [send], [stop]), the action
    classes that build outbound JSON commands, and
    [IncomingMessageHandler.command_received], which maps inbound JSON
    events to host notifications.

    Python objects are modelled by the type [value]; a call into the host
    ([print], [TriggerEvent]) or into the websocket library ([send_message],
    [shutdown], ...) is recorded as an [effect] in a trace; Python exceptions
    are the [Raise] outcome of a computation. *)

From Stdlib Require Import String Ascii List ZArith Lia Bool DecimalString.
Import ListNotations.
Local Open Scope string_scope.
Set Warnings "-register-all".

(** ** Python values *)

(** The values that [json.loads] returns and [json.dumps] accepts.  A
    [VDict] lists its items with distinct keys, in the order the program
    inserted them (a dict literal: in the order written); a JSON object does
    not depend on that order.  Characters are code points below 256, and
    numbers are restricted to integers: no claim depends on a fractional
    number. *)
Inductive value : Type :=
| VNone
| VBool (b : bool)
| VInt (z : Z)
| VStr (s : string)
| VList (l : list value)
| VDict (items : list (string * value)).

Inductive exn : Type :=
| ValueError                  (* json.loads on a text that is not JSON *)
| KeyError (key : string)     (* d[key] on a dict without that key *)
| TypeError                   (* x[key] on something that is not a dict *)
| AttributeError (name : string)
| SocketError.                (* the listening socket cannot be bound *)

Inductive outcome (A : Type) : Type :=
| Return (a : A)
| Raise (e : exn).
Arguments Return {A} a.
Arguments Raise {A} e.

(** [d.get(key)] on the item list of a dict. *)
Fixpoint dict_get (items : list (string * value)) (key : string) : option value :=
  match items with
  | [] => None
  | (k, v) :: rest => if String.eqb k key then Some v else dict_get rest key
  end.

(** [d[key] = v]: an existing key keeps its position, a new one is appended. *)
Fixpoint dict_set (items : list (string * value)) (key : string) (v : value)
  : list (string * value) :=
  match items with
  | [] => [(key, v)]
  | (k, w) :: rest =>
      if String.eqb k key then (k, v) :: rest else (k, w) :: dict_set rest key v
  end.

(** The subscript [y[key]] with a string key, as Python evaluates it on a
    decoded JSON value: a dict looks the key up, anything else rejects a
    string subscript. *)
Definition getitem (y : value) (key : string) : outcome value :=
  match y with
  | VDict items =>
      match dict_get items key with
      | Some v => Return v
      | None => Raise (KeyError key)
      end
  | _ => Raise TypeError
  end.

(** [x == 'literal'] for a string literal on the right. *)
Definition eq_str (x : value) (literal : string) : bool :=
  match x with
  | VStr s => String.eqb s literal
  | _ => false
  end.

(** ** json.dumps and json.loads *)

Module Json.

Definition dquote : ascii := "034"%char.
Definition backslash : ascii := "092"%char.

Definition hex_digit (n : nat) : ascii :=
  if Nat.ltb n 10 then ascii_of_nat (48 + n) else ascii_of_nat (87 + n).

(** The escape of one character under [ensure_ascii=True]. *)
Definition escape_char (c : ascii) : string :=
  let n := nat_of_ascii c in
  if Ascii.eqb c dquote then String backslash (String dquote EmptyString)
  else if Ascii.eqb c backslash then String backslash (String backslash EmptyString)
  else if Nat.eqb n 10 then String backslash "n"
  else if Nat.eqb n 13 then String backslash "r"
  else if Nat.eqb n 9 then String backslash "t"
  else if Nat.eqb n 8 then String backslash "b"
  else if Nat.eqb n 12 then String backslash "f"
  else if Nat.ltb n 32 || Nat.ltb 126 n then
    String backslash
      ("u00" ++ String (hex_digit (n / 16)) (String (hex_digit (n mod 16)) EmptyString))
  else String c EmptyString.

Fixpoint escape (s : string) : string :=
  match s with
  | EmptyString => EmptyString
  | String c rest => escape_char c ++ escape rest
  end.

Definition quoted (s : string) : string :=
  String dquote (escape s ++ String dquote EmptyString).

Definition dumps_int (z : Z) : string := NilZero.string_of_int (Z.to_int z).

Fixpoint join (sep : string) (parts : list string) : string :=
  match parts with
  | [] => EmptyString
  | [p] => p
  | p :: rest => p ++ sep ++ join sep rest
  end.

(** [json.dumps(v)] with its default separators [", "] and [": "]. *)
Fixpoint dumps (v : value) : string :=
  match v with
  | VNone => "null"
  | VBool true => "true"
  | VBool false => "false"
  | VInt z => dumps_int z
  | VStr s => quoted s
  | VList l => "[" ++ join ", " (map dumps l) ++ "]"
  | VDict items =>
      "{" ++ join ", " (map (fun kv => quoted (fst kv) ++ ": " ++ dumps (snd kv)) items)
          ++ "}"
  end.

(** *** A reference decoder

    [loads] decodes the fragment of JSON that [value] covers (objects,
    arrays, strings with the two-character escapes, integers, [true],
    [false], [null]); it raises [ValueError] where [json.loads] does, and
    also on a text outside the fragment (a fraction, an exponent, a [\u]
    escape).  The handler below is verified against an
    arbitrary decoder; this one decodes the concrete frames of the
    examples. *)

Definition is_ws (c : ascii) : bool :=
  let n := nat_of_ascii c in
  Nat.eqb n 32 || Nat.eqb n 9 || Nat.eqb n 10 || Nat.eqb n 13.

Fixpoint skip_ws (s : string) : string :=
  match s with
  | String c rest => if is_ws c then skip_ws rest else s
  | EmptyString => s
  end.

Definition is_digit (c : ascii) : bool :=
  let n := nat_of_ascii c in Nat.leb 48 n && Nat.leb n 57.

Definition unescape (c : ascii) : option ascii :=
  let n := nat_of_ascii c in
  if Ascii.eqb c dquote then Some dquote
  else if Ascii.eqb c backslash then Some backslash
  else if Nat.eqb n 47 then Some c
  else if Nat.eqb n 110 then Some (ascii_of_nat 10)
  else if Nat.eqb n 114 then Some (ascii_of_nat 13)
  else if Nat.eqb n 116 then Some (ascii_of_nat 9)
  else if Nat.eqb n 98 then Some (ascii_of_nat 8)
  else if Nat.eqb n 102 then Some (ascii_of_nat 12)
  else None.

(** The body of a string, after its opening quote. *)
Fixpoint string_body (s : string) : option (string * string) :=
  match s with
  | EmptyString => None
  | String c rest =>
      if Ascii.eqb c dquote then Some (EmptyString, rest)
      else if Ascii.eqb c backslash then
        match rest with
        | String e rest' =>
            match unescape e, string_body rest' with
            | Some c', Some (body, tail) => Some (String c' body, tail)
            | _, _ => None
            end
        | EmptyString => None
        end
      else if Nat.ltb (nat_of_ascii c) 32 then None
      else
        match string_body rest with
        | Some (body, tail) => Some (String c body, tail)
        | None => None
        end
  end.

Fixpoint digits (acc : Z) (s : string) : Z * string :=
  match s with
  | String c rest =>
      if is_digit c
      then digits (10 * acc + Z.of_nat (nat_of_ascii c - 48)) rest
      else (acc, s)
  | EmptyString => (acc, s)
  end.

(** An integer without sign: a lone [0], or digits that do not start with
    [0]; a fraction or an exponent after it is outside the fragment. *)
Definition natural (s : string) : option (Z * string) :=
  match s with
  | String c rest =>
      if negb (is_digit c) then None
      else
        let '(n, tail) :=
          if Nat.eqb (nat_of_ascii c) 48 then (0%Z, rest) else digits 0 s in
        match tail with
        | String d _ =>
            let k := nat_of_ascii d in
            if Nat.eqb k 46 || Nat.eqb k 101 || Nat.eqb k 69 then None
            else Some (n, tail)
        | EmptyString => Some (n, tail)
        end
  | EmptyString => None
  end.

Definition literal (word : string) (v : value) (s : string)
  : option (value * string) :=
  if String.prefix word s
  then Some (v, substring (String.length word)
                          (String.length s - String.length word) s)
  else None.

Fixpoint parse_value (fuel : nat) (s : string) : option (value * string) :=
  match fuel with
  | O => None
  | S fuel' =>
      match s with
      | EmptyString => None
      | String c rest =>
          let n := nat_of_ascii c in
          if Ascii.eqb c dquote then
            match string_body rest with
            | Some (body, tail) => Some (VStr body, tail)
            | None => None
            end
          else if Nat.eqb n 123 then          (* an object *)
            match skip_ws rest with
            | String c' rest' =>
                if Nat.eqb (nat_of_ascii c') 125 then Some (VDict [], rest')
                else
                  match parse_members fuel' [] (skip_ws rest) with
                  | Some (items, tail) => Some (VDict items, tail)
                  | None => None
                  end
            | EmptyString => None
            end
          else if Nat.eqb n 91 then           (* an array *)
            match skip_ws rest with
            | String c' rest' =>
                if Nat.eqb (nat_of_ascii c') 93 then Some (VList [], rest')
                else
                  match parse_elements fuel' (skip_ws rest) with
                  | Some (l, tail) => Some (VList l, tail)
                  | None => None
                  end
            | EmptyString => None
            end
          else if Nat.eqb n 45 then           (* a minus sign *)
            match natural rest with
            | Some (z, tail) => Some (VInt (- z), tail)
            | None => None
            end
          else if is_digit c then
            match natural s with
            | Some (z, tail) => Some (VInt z, tail)
            | None => None
            end
          else if Nat.eqb n 116 then literal "true" (VBool true) s
          else if Nat.eqb n 102 then literal "false" (VBool false) s
          else if Nat.eqb n 110 then literal "null" VNone s
          else None
      end
  end

(** The items of an object from its first key on, up to the closing brace;
    a repeated key overwrites the earlier item, as in a Python dict. *)
with parse_members (fuel : nat) (acc : list (string * value)) (s : string)
  : option (list (string * value) * string) :=
  match fuel with
  | O => None
  | S fuel' =>
      match s with
      | String c rest =>
          if negb (Ascii.eqb c dquote) then None
          else
            match string_body rest with
            | None => None
            | Some (key, tail) =>
                match skip_ws tail with
                | String colon tail' =>
                    if negb (Nat.eqb (nat_of_ascii colon) 58) then None
                    else
                      match parse_value fuel' (skip_ws tail') with
                      | None => None
                      | Some (v, tail'') =>
                          let acc' := dict_set acc key v in
                          match skip_ws tail'' with
                          | String d more =>
                              if Nat.eqb (nat_of_ascii d) 125 then Some (acc', more)
                              else if Nat.eqb (nat_of_ascii d) 44
                              then parse_members fuel' acc' (skip_ws more)
                              else None
                          | EmptyString => None
                          end
                      end
                | EmptyString => None
                end
            end
      | EmptyString => None
      end
  end

with parse_elements (fuel : nat) (s : string) : option (list value * string) :=
  match fuel with
  | O => None
  | S fuel' =>
      match parse_value fuel' s with
      | None => None
      | Some (v, tail) =>
          match skip_ws tail with
          | String d more =>
              if Nat.eqb (nat_of_ascii d) 93 then Some ([v], more)
              else if Nat.eqb (nat_of_ascii d) 44 then
                match parse_elements fuel' (skip_ws more) with
                | Some (l, tail') => Some (v :: l, tail')
                | None => None
                end
              else None
          | EmptyString => None
          end
      end
  end.

(** [json.loads(text)]: one value, surrounded by optional white space. *)
Definition loads (text : string) : outcome value :=
  match parse_value (2 * String.length text + 2) (skip_ws text) with
  | Some (v, tail) =>
      match skip_ws tail with
      | EmptyString => Return v
      | String _ _ => Raise ValueError
      end
  | None => Raise ValueError
  end.

End Json.

(** ** Effects, state and the computation monad *)

(** The client record that the websocket library hands to the callbacks
    (a dict with the keys ['id'] and ['handler'], among others). *)
Record client : Type := mkClient { client_id : nat; client_handler : nat }.

(** Calls that leave the plugin: into the host ([print], [TriggerEvent])
    and into the websocket library. *)
Inductive effect : Type :=
| Printed (text : string)
| Triggered (suffix : string) (payload : value)
| Sent (handler : nat) (message : string)
| Initialised (port : Z) (host : string)
| ThreadStarted
| ShutdownCalled.

Inductive Thread : Type := run_forever_thread.

(** The fields of a [Server] instance.  [base_initialised] stands for the
    attributes that [WebsocketServer.__init__] creates: [Server.__init__]
    does not call it, [Server.start] does. *)
Record Server : Type := mkServer {
  _thread : option Thread;
  _connected_client : option client;
  base_initialised : bool
}.

Record Run (A : Type) : Type := mkRun {
  result : outcome A;
  final : Server;
  trace : list effect
}.
Arguments mkRun {A} result final trace.
Arguments result {A} r.
Arguments final {A} r.
Arguments trace {A} r.

Definition M (A : Type) : Type := Server -> Run A.

Definition ret {A : Type} (a : A) : M A := fun st => mkRun (Return a) st [].

Definition raise {A : Type} (e : exn) : M A := fun st => mkRun (Raise e) st [].

Definition bind {A B : Type} (m : M A) (k : A -> M B) : M B :=
  fun st =>
    let r := m st in
    match result r with
    | Return a =>
        let r' := k a (final r) in
        mkRun (result r') (final r') (trace r ++ trace r')
    | Raise e => mkRun (Raise e) (final r) (trace r)
    end.

Notation "x <- m ;; k" := (bind m (fun x => k))
  (at level 61, m at next level, right associativity).
Notation "m ;; k" := (bind m (fun _ => k))
  (at level 61, right associativity).

Definition emit (e : effect) : M unit := fun st => mkRun (Return tt) st [e].

Definition eval {A : Type} (o : outcome A) : M A :=
  match o with
  | Return a => ret a
  | Raise e => raise e
  end.

Definition get : M Server := fun st => mkRun (Return st) st [].

Definition put (st' : Server) : M unit := fun _ => mkRun (Return tt) st' [].

Definition print (text : string) : M unit := emit (Printed text).

Definition TriggerEvent (suffix : string) (payload : value) : M unit :=
  emit (Triggered suffix payload).

(** The notifications raised in a trace, oldest first. *)
Fixpoint notifications (t : list effect) : list (string * value) :=
  match t with
  | [] => []
  | Triggered suffix payload :: rest => (suffix, payload) :: notifications rest
  | _ :: rest => notifications rest
  end.

(** The transport writes of a trace, oldest first. *)
Fixpoint writes (t : list effect) : list (nat * string) :=
  match t with
  | [] => []
  | Sent h message :: rest => (h, message) :: writes rest
  | _ :: rest => writes rest
  end.

(** ** class Server *)

(** [Server.__init__]. *)
Definition Server_init : Server :=
  {| _thread := None; _connected_client := None; base_initialised := false |}.

(** [WebsocketServer.__init__(self, port, host)]: the library's
    [TCPServer.__init__] first runs the base initialiser, which creates the
    attributes of the base server, and then binds the listening socket;
    [bound] tells whether the bind succeeds.  When it fails the error is
    raised with the attributes already in place. *)
Definition WebsocketServer_init (bound : bool) (port : Z) (host : string) : M unit :=
  emit (Initialised port host) ;;
  st <- get ;;
  put {| _thread := _thread st;
         _connected_client := _connected_client st;
         base_initialised := true |} ;;
  if bound then ret tt else raise SocketError.

Definition start (bound : bool) (host : string) (port : Z) : M unit :=
  WebsocketServer_init bound port host ;;
  st <- get ;;
  put {| _thread := Some run_forever_thread;
         _connected_client := _connected_client st;
         base_initialised := base_initialised st |} ;;
  emit ThreadStarted.

(** The inherited [shutdown()]: it asks the serve loop to stop and waits on
    an event that the base initialiser created; on an instance whose base
    initialiser never ran the attribute is missing.  The wait is modelled
    as ending, as it does once the loop that [start] spawns runs or has
    run; the record does not tell a base server whose loop was never
    spawned (after a failed bind), on which the wait would not end. *)
Definition shutdown : M unit :=
  emit ShutdownCalled ;;
  st <- get ;;
  if base_initialised st then ret tt
  else raise (AttributeError "_BaseServer__is_shut_down").

Definition stop : M unit :=
  shutdown ;;
  st <- get ;;
  put {| _thread := None;
         _connected_client := _connected_client st;
         base_initialised := base_initialised st |} ;;
  st <- get ;;
  put {| _thread := _thread st;
         _connected_client := None;
         base_initialised := base_initialised st |}.

Definition new_client (c : client) : M unit :=
  TriggerEvent "Browser.Connected" VNone ;;
  st <- get ;;
  put {| _thread := _thread st;
         _connected_client := Some c;
         base_initialised := base_initialised st |}.

Definition client_left (c : client) : M unit :=
  TriggerEvent "Browser.Disconnected" VNone ;;
  st <- get ;;
  put {| _thread := _thread st;
         _connected_client := None;
         base_initialised := base_initialised st |}.

Definition send (message : string) : M unit :=
  st <- get ;;
  match _connected_client st with
  | Some c => emit (Sent (client_handler c) message)
  | None => ret tt
  end.

(** ** The actions and the incoming message handler *)

Section Plugin.

(** [eg.ParseString], the host's expansion of a templated text. *)
Variable ParseString : string -> string.

(** [json.loads], as the handler calls it. *)
Variable loads : string -> outcome value.

(** *** Outbound messages: the dict each [__call__] builds *)

Definition NewTab_message (value1 : string) (value2 value3 value5 value6 : value)
  : value :=
  let value1 := ParseString value1 in
  VDict [("command", VStr "NewTab");
         ("parameters",
          VDict [("url", VStr value1); ("active", value2); ("pinned", value3);
                 ("target", value5); ("index", value6)])].

Definition UpdateTab_message (value1 : string)
    (value2 value3 value4 value5 value6 : value) : value :=
  let value1 := ParseString value1 in
  VDict [("command", VStr "NewUrl");
         ("parameters",
          VDict [("url", VStr value1); ("active", value2); ("pinned", value3);
                 ("muted", value4); ("target", value5); ("index", value6)])].

Definition ReloadTab_message (value5 value6 value7 : value) : value :=
  VDict [("command", VStr "ReloadTab");
         ("parameters",
          VDict [("target", value5); ("index", value6); ("bypasscache", value7)])].

Definition MoveTab_message (value5 value6 value7 : value) : value :=
  VDict [("command", VStr "MoveTab");
         ("parameters",
          VDict [("target", value5); ("startindex", value6); ("endindex", value7)])].

Definition RemoveTab_message (value5 value6 : value) : value :=
  VDict [("command", VStr "RemoveTab");
         ("parameters", VDict [("target", value5); ("index", value6)])].

Definition QueryActiveTab_message : value :=
  VDict [("command", VStr "QueryActiveTab")].

Definition QueryTabByIndex_message (message : value) : value :=
  VDict [("command", VStr "QueryTabByIndex"); ("data", message)].

(** The actions that [GoogleChrome.__init__] registers with [AddAction],
    each with the arguments of its [__call__].  ([SendMessage] and
    [QueryTab] are defined in the file but never registered.) *)
Inductive action : Type :=
| NewTab (value1 : string) (value2 value3 value5 value6 : value)
| MoveTab (value5 value6 value7 : value)
| RemoveTab (value5 value6 : value)
| UpdateTab (value1 : string) (value2 value3 value4 value5 value6 : value)
| ReloadTab (value5 value6 value7 : value)
| QueryTabByIndex (message : value)
| QueryActiveTab.

Definition message_of (a : action) : value :=
  match a with
  | NewTab v1 v2 v3 v5 v6 => NewTab_message v1 v2 v3 v5 v6
  | MoveTab v5 v6 v7 => MoveTab_message v5 v6 v7
  | RemoveTab v5 v6 => RemoveTab_message v5 v6
  | UpdateTab v1 v2 v3 v4 v5 v6 => UpdateTab_message v1 v2 v3 v4 v5 v6
  | ReloadTab v5 v6 v7 => ReloadTab_message v5 v6 v7
  | QueryTabByIndex m => QueryTabByIndex_message m
  | QueryActiveTab => QueryActiveTab_message
  end.

(** [__call__]: build the dict, [y = json.dumps(message)],
    [self.plugin.server.send(y)]. *)
Definition call (a : action) : M unit :=
  let y := Json.dumps (message_of a) in
  send y.

(** *** IncomingMessageHandler.command_received *)

Definition command_received (message : string) : M unit :=
  print message ;;
  y <- eval (loads message) ;;
  c <- eval (getitem y "command") ;;
  if eq_str c "QueryActiveTab" then
    (TriggerEvent "QueryActiveTabInfo" (VStr message) ;;
     data <- eval (getitem y "data") ;;
     url <- eval (getitem data "url") ;;
     TriggerEvent "QueryActiveTab" url)
  else
  c <- eval (getitem y "command") ;;
  if eq_str c "QueryTabByIndex" then
    (data <- eval (getitem y "data") ;;
     index <- eval (getitem data "index") ;;
     TriggerEvent "QueryTabByIndex" index ;;
     TriggerEvent "QueryTabByIndexInfo" (VStr message))
  else
  c <- eval (getitem y "command") ;;
  if eq_str c "ActiveTab" then
    (data <- eval (getitem y "data") ;;
     url <- eval (getitem data "url") ;;
     TriggerEvent "ActiveTabUrl" url ;;
     TriggerEvent "ActiveTabInfo" (VStr message))
  else
  c <- eval (getitem y "command") ;;
  if eq_str c "TabUpdated" then
    (data <- eval (getitem y "data") ;;
     url <- eval (getitem data "url") ;;
     TriggerEvent "ActiveTabUrl" url ;;
     TriggerEvent "ActiveTabUrInfo" (VStr message))
  else
  c <- eval (getitem y "command") ;;
  if eq_str c "CreateNewTab" then
    TriggerEvent "CreateNewTab" (VStr message)
  else
  c <- eval (getitem y "command") ;;
  if eq_str c "MoveTab" then
    TriggerEvent "MoveTab" (VStr message)
  else
  c <- eval (getitem y "command") ;;
  if eq_str c "RemoveTab" then
    TriggerEvent "RemoveTab" (VStr message)
  else ret tt.

(** [Server.message_received]: the frame goes to a fresh handler; nothing
    around the call catches an exception. *)
Definition message_received (c : client) (message : string) : M unit :=
  command_received message.

End Plugin.

(** ** Specification-side definitions and example inputs *)

(** [y['data'][field]], as the handler evaluates it. *)
Definition data_field (y : value) (field : string) : outcome value :=
  match getitem y "data" with
  | Return data => getitem data field
  | Raise e => Raise e
  end.

(** The table of the specification, written from the specification's
    words: one row per tag, giving the notifications raised in order as
    (name, payload); [raw] is the raw message, [url] and [index] stand for
    [data.url] and [data.index]. *)
Definition table_row : Type := string -> value -> value -> list (string * value).

Definition notification_table : list (string * table_row) :=
  [("QueryActiveTab", fun raw url _ =>
      [("QueryActiveTabInfo", VStr raw); ("QueryActiveTab", url)]);
   ("QueryTabByIndex", fun raw _ index =>
      [("QueryTabByIndex", index); ("QueryTabByIndexInfo", VStr raw)]);
   ("ActiveTab", fun raw url _ =>
      [("ActiveTabUrl", url); ("ActiveTabInfo", VStr raw)]);
   ("TabUpdated", fun raw url _ =>
      [("ActiveTabUrl", url); ("ActiveTabUrInfo", VStr raw)]);
   ("CreateNewTab", fun raw _ _ => [("CreateNewTab", VStr raw)]);
   ("MoveTab", fun raw _ _ => [("MoveTab", VStr raw)]);
   ("RemoveTab", fun raw _ _ => [("RemoveTab", VStr raw)])].

Fixpoint table_lookup (tag : string) (rows : list (string * table_row))
  : option table_row :=
  match rows with
  | [] => None
  | (t, row) :: rest => if String.eqb t tag then Some row else table_lookup tag rest
  end.

(** The notifications of the table for a decoded [command] value; any other
    tag (and a [command] that is not a string) has no row: nothing is
    raised. *)
Definition spec_table (tag : value) (raw : string) (url index : value)
  : list (string * value) :=
  match tag with
  | VStr t =>
      match table_lookup t notification_table with
      | Some row => row raw url index
      | None => []
      end
  | _ => []
  end.

(** The nested field that the table reads for a tag. *)
Definition needs_url (tag : value) : bool :=
  eq_str tag "QueryActiveTab" || eq_str tag "ActiveTab" || eq_str tag "TabUpdated".

Definition needs_index (tag : value) : bool := eq_str tag "QueryTabByIndex".

(** The nested field that the specification requires for a tag. *)
Definition required_field (tag : string) : option string :=
  if String.eqb tag "QueryActiveTab" then Some "url"
  else if String.eqb tag "QueryTabByIndex" then Some "index"
  else if String.eqb tag "ActiveTab" then Some "url"
  else if String.eqb tag "TabUpdated" then Some "url"
  else None.

(** What the specification promises for a frame that cannot be processed:
    the frame is dropped, nothing is raised towards the host and nothing is
    thrown to the caller. *)
Definition dropped_quietly (r : Run unit) : Prop :=
  result r = Return tt /\ notifications (trace r) = [].

Definition raise_all (ns : list (string * value)) : list effect :=
  map (fun n => Triggered (fst n) (snd n)) ns.

(** [current()] of the specification: the tracked peer, if any. *)
Definition current (st : Server) : option client := _connected_client st.

(** The peers reported current, as a list: it has at most one element. *)
Definition current_peers (st : Server) : list client :=
  match current st with
  | Some c => [c]
  | None => []
  end.

(** The library's connection callbacks, as a sequence of events. *)
Inductive session_event : Type :=
| attach (c : client)      (* a peer connected: [new_client] *)
| detach (c : client).     (* a peer disconnected: [client_left] *)

Definition handle (ev : session_event) : M unit :=
  match ev with
  | attach c => new_client c
  | detach c => client_left c
  end.

Fixpoint run_session (evs : list session_event) : M unit :=
  match evs with
  | [] => ret tt
  | ev :: rest => handle ev ;; run_session rest
  end.


(** The shape of a message that nests the given fields under
    [parameters]: the entry [command] with the given name, then the entry
    [parameters] holding exactly those fields, and no other entry. *)
Definition nested_under_parameters
    (m : value) (name : string) (fields : list (string * value)) : Prop :=
  m = VDict [("command", VStr name); ("parameters", VDict fields)] /\
  getitem m "parameters" = Return (VDict fields) /\
  getitem m "data" = Raise (KeyError "data").

(** A run, with one more effect in front of its trace. *)
Definition preceded {A : Type} (e : effect) (r : Run A) : Run A :=
  mkRun (result r) (final r) (e :: trace r).

Module Examples.

(** A JSON string literal, quotes included. *)
Definition jq (s : string) : string := Json.quoted s.

(** The inbound frame [{"command":<tag>,"data":<data>}], compact. *)
Definition frame (tag data : string) : string :=
  "{" ++ jq "command" ++ ":" ++ jq tag ++ "," ++ jq "data" ++ ":" ++ data ++ "}".

Definition frame_QueryActiveTab : string :=
  frame "QueryActiveTab" ("{" ++ jq "url" ++ ":" ++ jq "http://x" ++ "}").

Definition frame_QueryActiveTab_no_url : string := frame "QueryActiveTab" "{}".

Definition frame_ActiveTab_no_url : string := frame "ActiveTab" "{}".

Definition frame_Unknown : string := frame "Unknown" "{}".

Definition frame_no_command : string := "{" ++ jq "data" ++ ":{}}".

Definition frame_not_json : string := "oops".

(** The wire message of the specification's NewTab example, as a value and
    as the compact text the specification prints. *)
Definition NewTab_object : value :=
  VDict [("command", VStr "NewTab");
         ("parameters",
          VDict [("url", VStr "http://example.com"); ("active", VBool true);
                 ("pinned", VBool false); ("target", VInt 1);
                 ("index", VInt 3)])].

Definition NewTab_compact : string :=
  "{" ++ jq "command" ++ ":" ++ jq "NewTab" ++ "," ++ jq "parameters" ++ ":{"
      ++ jq "url" ++ ":" ++ jq "http://example.com" ++ ","
      ++ jq "active" ++ ":true," ++ jq "pinned" ++ ":false,"
      ++ jq "target" ++ ":1," ++ jq "index" ++ ":3}}".

(** The same message as [json.dumps] writes it, with its default
    separators. *)
Definition NewTab_dumped : string :=
  "{" ++ jq "command" ++ ": " ++ jq "NewTab" ++ ", " ++ jq "parameters" ++ ": {"
      ++ jq "url" ++ ": " ++ jq "http://example.com" ++ ", "
      ++ jq "active" ++ ": true, " ++ jq "pinned" ++ ": false, "
      ++ jq "target" ++ ": 1, " ++ jq "index" ++ ": 3}}".

Definition peer : client := mkClient 1 7.

Definition other_peer : client := mkClient 2 9.

Definition started : Server := mkServer (Some run_forever_thread) None true.

Definition attached : Server :=
  mkServer (Some run_forever_thread) (Some peer) true.

End Examples.

(** ** class GoogleChrome and runs of several calls *)

(** [GoogleChrome.__start__] and [GoogleChrome.__stop__]: the host's start
    and stop hooks; the address is fixed in the code. *)
Definition __start__ (bound : bool) : M unit :=
  let ip := "localhost" in
  let port := 8000%Z in
  start bound ip port.

Definition __stop__ : M unit := stop.

(** The notification names that [command_received] can raise. *)
Definition dispatcher_names : list string :=
  ["QueryActiveTabInfo"; "QueryActiveTab"; "QueryTabByIndex";
   "QueryTabByIndexInfo"; "ActiveTabUrl"; "ActiveTabInfo"; "ActiveTabUrInfo";
   "CreateNewTab"; "MoveTab"; "RemoveTab"].

(** The keys that [command_received] subscripts. *)
Definition dispatcher_keys : list string := ["command"; "data"; "url"; "index"].

(** What the host can observe of a handled frame apart from payloads: how
    the call ended and the names of the notifications, in order. *)
Definition observed (r : Run unit) : outcome unit * list string :=
  (result r, map fst (notifications (trace r))).

(** The lifecycle notification of a session event. *)
Definition lifecycle_notification (ev : session_event) : string * value :=
  match ev with
  | attach _ => ("Browser.Connected", VNone)
  | detach _ => ("Browser.Disconnected", VNone)
  end.

(** The peer tracked after a session event. *)
Definition track (cur : option client) (ev : session_event) : option client :=
  match ev with
  | attach c => Some c
  | detach _ => None
  end.

(** The URL argument of an action, for the two actions that have one. *)
Definition action_url (a : action) : option string :=
  match a with
  | NewTab value1 _ _ _ _ => Some value1
  | UpdateTab value1 _ _ _ _ _ => Some value1
  | _ => None
  end.

(** Whether two actions are calls of the same action class. *)
Definition same_class (a b : action) : bool :=
  match a, b with
  | NewTab _ _ _ _ _, NewTab _ _ _ _ _ => true
  | MoveTab _ _ _, MoveTab _ _ _ => true
  | RemoveTab _ _, RemoveTab _ _ => true
  | UpdateTab _ _ _ _ _ _, UpdateTab _ _ _ _ _ _ => true
  | ReloadTab _ _ _, ReloadTab _ _ _ => true
  | QueryTabByIndex _, QueryTabByIndex _ => true
  | QueryActiveTab, QueryActiveTab => true
  | _, _ => false
  end.

Section Calls.

Variable ParseString : string -> string.

Variable loads : string -> outcome value.

(** Several action calls in a row, as a macro makes them. *)
Fixpoint run_actions (acts : list action) : M unit :=
  match acts with
  | [] => ret tt
  | a :: rest => call ParseString a ;; run_actions rest
  end.

(** One call into the plugin: a callback of the websocket library or an
    action called by the host. *)
Inductive invocation : Type :=
| on_new_client (c : client)
| on_client_left (c : client)
| on_message (c : client) (message : string)
| on_action (a : action).

Definition invoke (i : invocation) : M unit :=
  match i with
  | on_new_client c => new_client c
  | on_client_left c => client_left c
  | on_message c message => message_received loads c message
  | on_action a => call ParseString a
  end.

(** A history of calls.  Each call is made on its own by the library or the
    host: it starts from the state the previous one left, whether that one
    returned or raised. *)
Fixpoint deliver (history : list invocation) (st : Server) : Server * list effect :=
  match history with
  | [] => (st, [])
  | i :: rest =>
      let r := invoke i st in
      let (st', t) := deliver rest (final r) in
      (st', (trace r ++ t)%list)
  end.

(** A one-slot router, the reading of the code as a pure function: the
    peer tracked after a history ... *)
Fixpoint tracked (cur : option client) (history : list invocation) : option client :=
  match history with
  | [] => cur
  | on_new_client c :: rest => tracked (Some c) rest
  | on_client_left _ :: rest => tracked None rest
  | _ :: rest => tracked cur rest
  end.

(** ... and the writes it makes: one per action called while a peer is
    tracked, to that peer. *)
Fixpoint routed (cur : option client) (history : list invocation)
  : list (nat * string) :=
  match history with
  | [] => []
  | on_new_client c :: rest => routed (Some c) rest
  | on_client_left _ :: rest => routed None rest
  | on_message _ _ :: rest => routed cur rest
  | on_action a :: rest =>
      match cur with
      | Some c =>
          (client_handler c, Json.dumps (message_of ParseString a))
          :: routed cur rest
      | None => routed cur rest
      end
  end.

End Calls.

Module Frames.

(** The QueryActiveTab frame of [Examples], with one more entry in front:
    [{"id":7,"command":"QueryActiveTab","data":{"url":"http://x"}}]. *)
Definition QueryActiveTab_with_id : string :=
  "{" ++ Examples.jq "id" ++ ":7," ++ Examples.jq "command" ++ ":"
      ++ Examples.jq "QueryActiveTab" ++ "," ++ Examples.jq "data" ++ ":{"
      ++ Examples.jq "url" ++ ":" ++ Examples.jq "http://x" ++ "}}".

(** A frame that is JSON but not an object. *)
Definition a_list : string := "[1, 2]".

End Frames.

(** ** Stepping lemmas for the monad *)

Lemma run_eta (A : Type) (r : Run A) : mkRun (result r) (final r) (trace r) = r.
Proof. destruct r; reflexivity. Qed.

Lemma bind_eval_Return (A B : Type) (a : A) (k : A -> M B) (st : Server) :
  bind (eval (Return a)) k st = k a st.
Proof. unfold bind; simpl. apply run_eta. Qed.

Lemma bind_eval_Raise (A B : Type) (e : exn) (k : A -> M B) (st : Server) :
  bind (eval (@Raise A e)) k st = mkRun (Raise e) st [].
Proof. reflexivity. Qed.

Lemma bind_emit (B : Type) (e : effect) (k : unit -> M B) (st : Server) :
  bind (emit e) k st = preceded e (k tt st).
Proof. reflexivity. Qed.

Lemma bind_get (B : Type) (k : Server -> M B) (st : Server) :
  bind get k st = k st st.
Proof. unfold bind; simpl. apply run_eta. Qed.

Lemma bind_put (B : Type) (st' : Server) (k : unit -> M B) (st : Server) :
  bind (put st') k st = k tt st'.
Proof. unfold bind; simpl. apply run_eta. Qed.

Lemma emit_run (e : effect) (st : Server) : emit e st = mkRun (Return tt) st [e].
Proof. reflexivity. Qed.

Ltac step :=
  first [ rewrite bind_eval_Return
        | rewrite bind_eval_Raise
        | rewrite bind_emit
        | rewrite bind_get
        | rewrite bind_put
        | rewrite emit_run ];
  cbv beta iota.

(** ** The dispatcher *)

Lemma notifications_raise_all (ns : list (string * value)) :
  notifications (raise_all ns) = ns.
Proof.
  induction ns as [|[suffix payload] ns IH]; simpl; [reflexivity|].
  now rewrite IH.
Qed.

Lemma data_field_Return (y : value) (field : string) (v : value)
    (B : Type) (k : value -> M B) (st : Server) :
  data_field y field = Return v ->
  bind (eval (getitem y "data"))
       (fun data => bind (eval (getitem data field)) k) st = k v st.
Proof.
  unfold data_field. intros H.
  destruct (getitem y "data") as [data|e]; [|discriminate].
  rewrite bind_eval_Return, H. apply bind_eval_Return.
Qed.

Lemma data_field_Raise (y : value) (field : string) (e : exn)
    (B : Type) (k : value -> M B) (st : Server) :
  data_field y field = Raise e ->
  bind (eval (getitem y "data"))
       (fun data => bind (eval (getitem data field)) k) st = mkRun (Raise e) st [].
Proof.
  unfold data_field. intros H.
  destruct (getitem y "data") as [data|e']; [|now inversion H].
  rewrite bind_eval_Return, H. reflexivity.
Qed.

(** The table lookup, as the chain of comparisons that the code makes. *)
Lemma spec_table_chain (tag : value) (raw : string) (url index : value) :
  spec_table tag raw url index =
    if eq_str tag "QueryActiveTab" then
      [("QueryActiveTabInfo", VStr raw); ("QueryActiveTab", url)]
    else if eq_str tag "QueryTabByIndex" then
      [("QueryTabByIndex", index); ("QueryTabByIndexInfo", VStr raw)]
    else if eq_str tag "ActiveTab" then
      [("ActiveTabUrl", url); ("ActiveTabInfo", VStr raw)]
    else if eq_str tag "TabUpdated" then
      [("ActiveTabUrl", url); ("ActiveTabUrInfo", VStr raw)]
    else if eq_str tag "CreateNewTab" then [("CreateNewTab", VStr raw)]
    else if eq_str tag "MoveTab" then [("MoveTab", VStr raw)]
    else if eq_str tag "RemoveTab" then [("RemoveTab", VStr raw)]
    else [].
Proof.
  destruct tag as [| | |t| |]; try reflexivity.
  unfold spec_table, notification_table, table_lookup, eq_str.
  repeat match goal with
         | |- context [String.eqb ?k t] => rewrite (String.eqb_sym k t)
         end.
  repeat match goal with
         | |- context [String.eqb t ?k] => destruct (String.eqb t k)
         end; reflexivity.
Qed.

Section Dispatcher.

Variable loads : string -> outcome value.

(** C1. For a decoded event whose data carries the field that its tag
    reads, [command_received] returns normally, leaves the server untouched
    and raises exactly the notifications of the specification's table for
    that tag, in the table's order (after printing the frame); for a tag
    outside the table nothing is raised and the handler still returns. *)
Theorem command_received_follows_table
    (st : Server) (message : string) (y tag url index : value) :
  loads message = Return y ->
  getitem y "command" = Return tag ->
  (needs_url tag = true -> data_field y "url" = Return url) ->
  (needs_index tag = true -> data_field y "index" = Return index) ->
  command_received loads message st =
    mkRun (Return tt) st
          (Printed message :: raise_all (spec_table tag message url index)) /\
  notifications (trace (command_received loads message st)) =
    spec_table tag message url index.
Proof.
  intros Hy Hc Hurl Hindex.
  assert (Hrun : command_received loads message st =
            mkRun (Return tt) st
              (Printed message :: raise_all (spec_table tag message url index))).
  { rewrite spec_table_chain.
    unfold command_received, print, TriggerEvent, needs_url, needs_index in *.
    step. rewrite Hy. step. rewrite Hc. step.
    destruct (eq_str tag "QueryActiveTab") eqn:E1.
    { step. rewrite (data_field_Return _ _ url) by (apply Hurl; reflexivity).
      reflexivity. }
    step.
    destruct (eq_str tag "QueryTabByIndex") eqn:E2.
    { rewrite (data_field_Return _ _ index) by (apply Hindex; reflexivity).
      reflexivity. }
    step.
    destruct (eq_str tag "ActiveTab") eqn:E3.
    { rewrite (data_field_Return _ _ url) by (apply Hurl; reflexivity).
      reflexivity. }
    step.
    destruct (eq_str tag "TabUpdated") eqn:E4.
    { rewrite (data_field_Return _ _ url) by (apply Hurl; reflexivity).
      reflexivity. }
    step.
    destruct (eq_str tag "CreateNewTab") eqn:E5; [reflexivity|].
    step.
    destruct (eq_str tag "MoveTab") eqn:E6; [reflexivity|].
    step.
    destruct (eq_str tag "RemoveTab") eqn:E7; reflexivity. }
  split; [exact Hrun|].
  rewrite Hrun. simpl. apply notifications_raise_all.
Qed.

(** C2 (amended). For an event tagged QueryTabByIndex, ActiveTab or
    TabUpdated whose data is a mapping without the field that the tag reads,
    the frame is printed and no notification is raised, but nothing records
    or handles the condition: the [KeyError] of the lookup leaves
    [command_received] and [Server.message_received] and reaches the
    library's receive path. *)
Theorem missing_field_raises_KeyError
    (st : Server) (c : client) (message : string) (y : value)
    (tag field : string) (items : list (string * value)) :
  loads message = Return y ->
  getitem y "command" = Return (VStr tag) ->
  tag <> "QueryActiveTab" ->
  required_field tag = Some field ->
  getitem y "data" = Return (VDict items) ->
  dict_get items field = None ->
  message_received loads c message st =
    mkRun (Raise (KeyError field)) st [Printed message].
Proof.
  intros Hy Hc Hq Hreq Hdata Hfield.
  assert (Hmiss : data_field y field = Raise (KeyError field)).
  { unfold data_field. rewrite Hdata. simpl. now rewrite Hfield. }
  revert Hreq.
  unfold message_received, command_received, required_field, print, TriggerEvent.
  step. rewrite Hy. step. rewrite Hc. step. unfold eq_str.
  destruct (String.eqb tag "QueryActiveTab") eqn:E1.
  { apply String.eqb_eq in E1. contradiction. }
  step.
  destruct (String.eqb tag "QueryTabByIndex") eqn:E2.
  { intros [= <-]. now rewrite (data_field_Raise _ _ _ _ _ _ Hmiss). }
  step.
  destruct (String.eqb tag "ActiveTab") eqn:E3.
  { intros [= <-]. now rewrite (data_field_Raise _ _ _ _ _ _ Hmiss). }
  step.
  destruct (String.eqb tag "TabUpdated") eqn:E4.
  { intros [= <-]. now rewrite (data_field_Raise _ _ _ _ _ _ Hmiss). }
  discriminate.
Qed.

(** C3 (amended). For a frame that [json.loads] rejects, or whose decoded
    value has no [command] entry, the frame is printed and no notification
    is raised, but the error is not caught: the exception of the failing
    step ([ValueError] from the decoder, [KeyError] from the lookup) leaves
    [command_received] and [Server.message_received]. *)
Theorem malformed_frame_raises
    (st : Server) (c : client) (message : string) (e : exn) :
  loads message = Raise e \/
  (exists y, loads message = Return y /\ getitem y "command" = Raise e) ->
  message_received loads c message st =
    mkRun (Raise e) st [Printed message].
Proof.
  unfold message_received, command_received, print.
  intros [Hy | [y [Hy Hc]]].
  - step. now rewrite Hy.
  - step. rewrite Hy. step. now rewrite Hc.
Qed.

(** C10. For an event tagged QueryActiveTab whose [data.url] lookup fails,
    the QueryActiveTabInfo notification with the raw message has already
    been raised when the lookup raises: the run ends in the exception with
    that one notification in its trace. *)
Theorem QueryActiveTab_partial_prefix
    (st : Server) (message : string) (y : value) (e : exn) :
  loads message = Return y ->
  getitem y "command" = Return (VStr "QueryActiveTab") ->
  data_field y "url" = Raise e ->
  command_received loads message st =
    mkRun (Raise e) st
          [Printed message; Triggered "QueryActiveTabInfo" (VStr message)].
Proof.
  intros Hy Hc Hurl.
  unfold command_received, print, TriggerEvent.
  step. rewrite Hy. step. rewrite Hc. step.
  change (eq_str (VStr "QueryActiveTab") "QueryActiveTab") with true.
  cbv iota. step. now rewrite (data_field_Raise _ _ _ _ _ _ Hurl).
Qed.

End Dispatcher.

(** ** The session registry *)

Lemma run_session_returns (evs : list session_event) (st : Server) :
  result (run_session evs st) = Return tt.
Proof.
  revert st. induction evs as [|ev evs IH]; intros st; [reflexivity|].
  simpl. unfold bind. destruct ev; simpl; apply IH.
Qed.

Lemma run_session_app (evs evs' : list session_event) (st : Server) :
  final (run_session (evs ++ evs') st) =
  final (run_session evs' (final (run_session evs st))).
Proof.
  revert st. induction evs as [|ev evs IH]; intros st; [reflexivity|].
  simpl. unfold bind. destruct ev; simpl; apply IH.
Qed.

(** C5. The registry holds one optional peer.  Whatever sequence of attach
    and detach events the server handles, every callback returns, at most
    one peer is reported current, and which one is decided by the last
    event alone: the peer of the last attach, or none after a detach (and
    the initial registry is empty).  In particular two attaches in a row
    leave exactly one peer current, the second. *)
Theorem at_most_one_session
    (evs : list session_event) (st : Server) (c c' : client) :
  result (run_session evs st) = Return tt /\
  length (current_peers (final (run_session evs st))) <= 1 /\
  current Server_init = None /\
  current (final (run_session (evs ++ [attach c]) st)) = Some c /\
  current (final (run_session (evs ++ [detach c]) st)) = None /\
  current_peers (final (run_session (evs ++ [attach c; attach c']) st)) = [c'].
Proof.
  split; [apply run_session_returns|].
  split.
  { unfold current_peers. destruct (current _); simpl; lia. }
  split; [reflexivity|].
  repeat split; rewrite run_session_app; reflexivity.
Qed.

(** C9. [client_left] empties the registry whoever leaves: after any
    disconnect no peer is current; and when a second peer has displaced the
    first and the first then disconnects, no peer is current and a
    following [send] writes nothing and returns normally. *)
Theorem client_left_clears_unconditionally
    (st : Server) (c c1 c2 : client) (message : string) :
  current (final (client_left c st)) = None /\
  current (final ((new_client c1 ;; new_client c2 ;; client_left c1) st)) = None /\
  (new_client c1 ;; new_client c2 ;; client_left c1 ;; send message) st =
    mkRun (Return tt)
          (mkServer (_thread st) None (base_initialised st))
          [Triggered "Browser.Connected" VNone;
           Triggered "Browser.Connected" VNone;
           Triggered "Browser.Disconnected" VNone].
Proof. repeat split. Qed.

(** ** Sending *)

Lemma send_run (message : string) (st : Server) :
  send message st =
    match _connected_client st with
    | Some c => mkRun (Return tt) st [Sent (client_handler c) message]
    | None => mkRun (Return tt) st []
    end.
Proof.
  unfold send. rewrite bind_get.
  destruct (_connected_client st); reflexivity.
Qed.

(** C4. With no peer attached, [send] of any text and the call of any
    registered action return normally, leave the server as it was (nothing
    is queued) and write nothing to the transport; and nothing is written
    later either, when a peer attaches after the call. *)
Theorem send_without_peer_is_dropped
    (ParseString : string -> string) (st : Server)
    (a : action) (message : string) (c : client) :
  _connected_client st = None ->
  send message st = mkRun (Return tt) st [] /\
  call ParseString a st = mkRun (Return tt) st [] /\
  writes (trace ((call ParseString a ;; new_client c) st)) = [].
Proof.
  intros Hnone.
  assert (Hsend : forall m, send m st = mkRun (Return tt) st []).
  { intros m. rewrite send_run, Hnone. reflexivity. }
  split; [apply Hsend|].
  split; [apply Hsend|].
  unfold bind, call. rewrite Hsend. reflexivity.
Qed.

(** ** Stopping *)


(** ** Outbound wire shapes *)

Section Actions.

Variable ParseString : string -> string.

(** C7. When string expansion leaves the URL as it is, the NewTab action
    called with url "http://example.com", active true, pinned false,
    target 1 and index 3 hands [Server.send] the [json.dumps] text of the
    message {command: NewTab, parameters: {url, active, pinned, target,
    index}} with exactly those values; that text decodes to the same JSON
    object as the specification's compact text, and with a peer attached it
    is the one text written to that peer. *)
Theorem NewTab_wire_message (t : option Thread) (c : client) (b : bool) :
  ParseString "http://example.com" = "http://example.com" ->
  call ParseString
       (NewTab "http://example.com" (VBool true) (VBool false) (VInt 1) (VInt 3))
    = send Examples.NewTab_dumped /\
  Json.dumps Examples.NewTab_object = Examples.NewTab_dumped /\
  Json.loads Examples.NewTab_dumped = Return Examples.NewTab_object /\
  Json.loads Examples.NewTab_compact = Return Examples.NewTab_object /\
  call ParseString
       (NewTab "http://example.com" (VBool true) (VBool false) (VInt 1) (VInt 3))
       (mkServer t (Some c) b)
    = mkRun (Return tt) (mkServer t (Some c) b)
            [Sent (client_handler c) Examples.NewTab_dumped].
Proof.
  intros Hexpand.
  assert (Hcall : call ParseString
            (NewTab "http://example.com" (VBool true) (VBool false)
                    (VInt 1) (VInt 3)) = send Examples.NewTab_dumped).
  { unfold call, message_of, NewTab_message. rewrite Hexpand. reflexivity. }
  split; [exact Hcall|].
  split; [reflexivity|].
  split; [vm_compute; reflexivity|].
  split; [vm_compute; reflexivity|].
  rewrite Hcall, send_run. reflexivity.
Qed.

(** C8. For every index the QueryTabByIndex action builds
    {command: QueryTabByIndex, data: index}, with the index at top level and
    no [parameters] key; QueryActiveTab builds {command: QueryActiveTab}
    and nothing else; every other registered action builds a message of the
    two keys [command] and [parameters], with its command name and with
    each of its arguments under its own key inside [parameters] (the URL
    after string expansion).  In each case the text written to an attached
    peer is the [json.dumps] of that message. *)
Theorem outbound_shapes (a : action) (t : option Thread) (c : client) (b : bool) :
  match a with
  | QueryTabByIndex index =>
      message_of ParseString a =
        VDict [("command", VStr "QueryTabByIndex"); ("data", index)] /\
      getitem (message_of ParseString a) "parameters" =
        Raise (KeyError "parameters") /\
      Json.dumps (message_of ParseString a) =
        "{" ++ Examples.jq "command" ++ ": " ++ Examples.jq "QueryTabByIndex"
            ++ ", " ++ Examples.jq "data" ++ ": " ++ Json.dumps index ++ "}"
  | QueryActiveTab =>
      message_of ParseString a = VDict [("command", VStr "QueryActiveTab")] /\
      getitem (message_of ParseString a) "parameters" =
        Raise (KeyError "parameters") /\
      Json.dumps (message_of ParseString a) =
        "{" ++ Examples.jq "command" ++ ": " ++ Examples.jq "QueryActiveTab" ++ "}"
  | NewTab value1 value2 value3 value5 value6 =>
      nested_under_parameters (message_of ParseString a) "NewTab"
        [("url", VStr (ParseString value1)); ("active", value2);
         ("pinned", value3); ("target", value5); ("index", value6)]
  | UpdateTab value1 value2 value3 value4 value5 value6 =>
      nested_under_parameters (message_of ParseString a) "NewUrl"
        [("url", VStr (ParseString value1)); ("active", value2);
         ("pinned", value3); ("muted", value4); ("target", value5);
         ("index", value6)]
  | ReloadTab value5 value6 value7 =>
      nested_under_parameters (message_of ParseString a) "ReloadTab"
        [("target", value5); ("index", value6); ("bypasscache", value7)]
  | MoveTab value5 value6 value7 =>
      nested_under_parameters (message_of ParseString a) "MoveTab"
        [("target", value5); ("startindex", value6); ("endindex", value7)]
  | RemoveTab value5 value6 =>
      nested_under_parameters (message_of ParseString a) "RemoveTab"
        [("target", value5); ("index", value6)]
  end /\
  call ParseString a (mkServer t (Some c) b) =
    mkRun (Return tt) (mkServer t (Some c) b)
          [Sent (client_handler c) (Json.dumps (message_of ParseString a))].
Proof.
  split; [|unfold call; rewrite send_run; reflexivity].
  destruct a; unfold nested_under_parameters; repeat split.
Qed.

End Actions.

(** ** The specification's examples, run on the reference decoder *)

Lemma command_received_follows_table_witness :
  command_received Json.loads Examples.frame_QueryActiveTab Examples.attached =
    mkRun (Return tt) Examples.attached
          [Printed Examples.frame_QueryActiveTab;
           Triggered "QueryActiveTabInfo" (VStr Examples.frame_QueryActiveTab);
           Triggered "QueryActiveTab" (VStr "http://x")] /\
  notifications
    (trace (command_received Json.loads Examples.frame_QueryActiveTab
                             Examples.attached)) =
    [("QueryActiveTabInfo", VStr Examples.frame_QueryActiveTab);
     ("QueryActiveTab", VStr "http://x")].
Proof.
  refine (command_received_follows_table Json.loads Examples.attached
            Examples.frame_QueryActiveTab
            (VDict [("command", VStr "QueryActiveTab");
                    ("data", VDict [("url", VStr "http://x")])])
            (VStr "QueryActiveTab") (VStr "http://x") VNone _ _ _ _).
  - vm_compute. reflexivity.
  - reflexivity.
  - intros _. reflexivity.
  - intros H. vm_compute in H. discriminate H.
Defined.

(** The other rows of the table, on concrete frames. *)
Example QueryTabByIndex_row :
  notifications
    (trace (command_received Json.loads
              (Examples.frame "QueryTabByIndex"
                 ("{" ++ Examples.jq "index" ++ ": 4}"))
              Examples.attached)) =
    [("QueryTabByIndex", VInt 4);
     ("QueryTabByIndexInfo",
      VStr (Examples.frame "QueryTabByIndex"
              ("{" ++ Examples.jq "index" ++ ": 4}")))].
Proof. vm_compute. reflexivity. Qed.

Example TabUpdated_row :
  notifications
    (trace (command_received Json.loads
              (Examples.frame "TabUpdated"
                 ("{" ++ Examples.jq "url" ++ ":" ++ Examples.jq "http://x" ++ "}"))
              Examples.attached)) =
    [("ActiveTabUrl", VStr "http://x");
     ("ActiveTabUrInfo",
      VStr (Examples.frame "TabUpdated"
              ("{" ++ Examples.jq "url" ++ ":" ++ Examples.jq "http://x" ++ "}")))].
Proof. vm_compute. reflexivity. Qed.

Example RemoveTab_row :
  notifications
    (trace (command_received Json.loads (Examples.frame "RemoveTab" "{}")
                             Examples.attached)) =
    [("RemoveTab", VStr (Examples.frame "RemoveTab" "{}"))].
Proof. vm_compute. reflexivity. Qed.

(** An unknown tag: nothing is raised and the handler returns. *)
Example unknown_tag_is_ignored :
  command_received Json.loads Examples.frame_Unknown Examples.attached =
    mkRun (Return tt) Examples.attached [Printed Examples.frame_Unknown].
Proof. vm_compute. reflexivity. Qed.

Lemma missing_field_raises_KeyError_witness :
  message_received Json.loads Examples.peer Examples.frame_ActiveTab_no_url
                   Examples.attached =
    mkRun (Raise (KeyError "url")) Examples.attached
          [Printed Examples.frame_ActiveTab_no_url].
Proof.
  refine (missing_field_raises_KeyError Json.loads Examples.attached
            Examples.peer Examples.frame_ActiveTab_no_url
            (VDict [("command", VStr "ActiveTab"); ("data", VDict [])])
            "ActiveTab" "url" [] _ _ _ _ _ _).
  - vm_compute. reflexivity.
  - reflexivity.
  - discriminate.
  - reflexivity.
  - reflexivity.
  - reflexivity.
Defined.

(** C2, as stated, fails on the specification's own example: for
    [{"command":"ActiveTab","data":{}}] the receive callback does not
    return, it raises. *)
Lemma missing_field_not_dropped_quietly :
  ~ dropped_quietly
      (message_received Json.loads Examples.peer
                        Examples.frame_ActiveTab_no_url Examples.attached).
Proof.
  intros [Hresult _]. vm_compute in Hresult. discriminate Hresult.
Qed.

Lemma malformed_frame_raises_witness :
  message_received Json.loads Examples.peer Examples.frame_not_json
                   Examples.attached =
    mkRun (Raise ValueError) Examples.attached
          [Printed Examples.frame_not_json].
Proof.
  refine (malformed_frame_raises Json.loads Examples.attached Examples.peer
            Examples.frame_not_json ValueError _).
  left. vm_compute. reflexivity.
Defined.

Example frame_without_command_raises :
  message_received Json.loads Examples.peer Examples.frame_no_command
                   Examples.attached =
    mkRun (Raise (KeyError "command")) Examples.attached
          [Printed Examples.frame_no_command].
Proof. vm_compute. reflexivity. Qed.

(** C3, as stated, fails on a text that is not JSON: the receive callback
    does not return, it raises. *)
Lemma malformed_frame_not_dropped_quietly :
  ~ dropped_quietly
      (message_received Json.loads Examples.peer Examples.frame_not_json
                        Examples.attached).
Proof.
  intros [Hresult _]. vm_compute in Hresult. discriminate Hresult.
Qed.

Lemma QueryActiveTab_partial_prefix_witness :
  command_received Json.loads Examples.frame_QueryActiveTab_no_url
                   Examples.attached =
    mkRun (Raise (KeyError "url")) Examples.attached
          [Printed Examples.frame_QueryActiveTab_no_url;
           Triggered "QueryActiveTabInfo"
                     (VStr Examples.frame_QueryActiveTab_no_url)].
Proof.
  refine (QueryActiveTab_partial_prefix Json.loads Examples.attached
            Examples.frame_QueryActiveTab_no_url
            (VDict [("command", VStr "QueryActiveTab"); ("data", VDict [])])
            (KeyError "url") _ _ _).
  - vm_compute. reflexivity.
  - reflexivity.
  - reflexivity.
Defined.

(** A second peer displaces the first; when the first leaves, nobody is
    current and the next command goes nowhere. *)
Example displaced_peer_leaves :
  (new_client Examples.peer ;; new_client Examples.other_peer ;;
   client_left Examples.peer ;; call (fun s => s) QueryActiveTab)
    Examples.started =
    mkRun (Return tt) Examples.started
          [Triggered "Browser.Connected" VNone;
           Triggered "Browser.Connected" VNone;
           Triggered "Browser.Disconnected" VNone].
Proof. reflexivity. Qed.

Lemma send_without_peer_is_dropped_witness :
  send Examples.NewTab_dumped Examples.started =
    mkRun (Return tt) Examples.started [] /\
  call (fun s => s) QueryActiveTab Examples.started =
    mkRun (Return tt) Examples.started [] /\
  writes (trace ((call (fun s => s) QueryActiveTab ;; new_client Examples.peer)
                   Examples.started)) = [].
Proof.
  apply (send_without_peer_is_dropped (fun s => s) Examples.started
           QueryActiveTab Examples.NewTab_dumped Examples.peer).
  reflexivity.
Defined.


Lemma NewTab_wire_message_witness :
  call (fun s => s)
       (NewTab "http://example.com" (VBool true) (VBool false) (VInt 1) (VInt 3))
       Examples.attached
    = mkRun (Return tt) Examples.attached
            [Sent (client_handler Examples.peer) Examples.NewTab_dumped].
Proof.
  apply (NewTab_wire_message (fun s => s) (Some run_forever_thread)
           Examples.peer true).
  reflexivity.
Defined.

(** ** More on the dispatcher *)

Section DispatcherCases.

Variable loads : string -> outcome value.

(** The run of [command_received], case by case. *)
Lemma command_received_cases (st : Server) (message : string) :
  command_received loads message st =
    preceded (Printed message)
      match loads message with
      | Raise e => mkRun (Raise e) st []
      | Return y =>
          match getitem y "command" with
          | Raise e => mkRun (Raise e) st []
          | Return tag =>
              if eq_str tag "QueryActiveTab" then
                preceded (Triggered "QueryActiveTabInfo" (VStr message))
                  match data_field y "url" with
                  | Return url =>
                      mkRun (Return tt) st [Triggered "QueryActiveTab" url]
                  | Raise e => mkRun (Raise e) st []
                  end
              else if eq_str tag "QueryTabByIndex" then
                match data_field y "index" with
                | Return index =>
                    mkRun (Return tt) st
                          [Triggered "QueryTabByIndex" index;
                           Triggered "QueryTabByIndexInfo" (VStr message)]
                | Raise e => mkRun (Raise e) st []
                end
              else if eq_str tag "ActiveTab" then
                match data_field y "url" with
                | Return url =>
                    mkRun (Return tt) st
                          [Triggered "ActiveTabUrl" url;
                           Triggered "ActiveTabInfo" (VStr message)]
                | Raise e => mkRun (Raise e) st []
                end
              else if eq_str tag "TabUpdated" then
                match data_field y "url" with
                | Return url =>
                    mkRun (Return tt) st
                          [Triggered "ActiveTabUrl" url;
                           Triggered "ActiveTabUrInfo" (VStr message)]
                | Raise e => mkRun (Raise e) st []
                end
              else if eq_str tag "CreateNewTab" then
                mkRun (Return tt) st [Triggered "CreateNewTab" (VStr message)]
              else if eq_str tag "MoveTab" then
                mkRun (Return tt) st [Triggered "MoveTab" (VStr message)]
              else if eq_str tag "RemoveTab" then
                mkRun (Return tt) st [Triggered "RemoveTab" (VStr message)]
              else mkRun (Return tt) st []
          end
      end.
Proof.
  unfold command_received, print, TriggerEvent.
  step. f_equal.
  destruct (loads message) as [y|e]; [|reflexivity].
  step.
  destruct (getitem y "command") as [tag|e]; [|reflexivity].
  step.
  destruct (eq_str tag "QueryActiveTab").
  { step. f_equal.
    destruct (data_field y "url") as [url|e] eqn:E.
    - now rewrite (data_field_Return _ _ _ _ _ _ E).
    - now rewrite (data_field_Raise _ _ _ _ _ _ E). }
  step.
  destruct (eq_str tag "QueryTabByIndex").
  { destruct (data_field y "index") as [index|e] eqn:E.
    - now rewrite (data_field_Return _ _ _ _ _ _ E).
    - now rewrite (data_field_Raise _ _ _ _ _ _ E). }
  step.
  destruct (eq_str tag "ActiveTab").
  { destruct (data_field y "url") as [url|e] eqn:E.
    - now rewrite (data_field_Return _ _ _ _ _ _ E).
    - now rewrite (data_field_Raise _ _ _ _ _ _ E). }
  step.
  destruct (eq_str tag "TabUpdated").
  { destruct (data_field y "url") as [url|e] eqn:E.
    - now rewrite (data_field_Return _ _ _ _ _ _ E).
    - now rewrite (data_field_Raise _ _ _ _ _ _ E). }
  step.
  destruct (eq_str tag "CreateNewTab"); [reflexivity|].
  step.
  destruct (eq_str tag "MoveTab"); [reflexivity|].
  step.
  destruct (eq_str tag "RemoveTab"); reflexivity.
Qed.

End DispatcherCases.

Lemma getitem_Raise (v : value) (key : string) (e : exn) :
  getitem v key = Raise e -> e = TypeError \/ e = KeyError key.
Proof.
  destruct v; simpl; try (intros [= <-]; now left).
  destruct (dict_get items key); [discriminate|].
  intros [= <-]. now right.
Qed.

Lemma data_field_Raise_inv (y : value) (field : string) (e : exn) :
  data_field y field = Raise e ->
  e = TypeError \/ e = KeyError "data" \/ e = KeyError field.
Proof.
  unfold data_field.
  destruct (getitem y "data") as [data|e'] eqn:E.
  - intros H. apply getitem_Raise in H. tauto.
  - intros [= <-]. apply getitem_Raise in E. tauto.
Qed.

Lemma eq_str_true (tag : value) (literal : string) :
  eq_str tag literal = true -> tag = VStr literal.
Proof.
  destruct tag; simpl; try discriminate.
  intros H. apply String.eqb_eq in H. now subst.
Qed.

(** Split a goal about [command_received] into the cases of its run. *)
Ltac dispatcher_cases :=
  rewrite ?command_received_cases;
  repeat match goal with
         | |- context [match ?o with Return _ => _ | Raise _ => _ end] =>
             destruct o eqn:?
         | |- context [if ?b then _ else _] => destruct b eqn:?
         end.

Ltac known_name := simpl; repeat first [left; reflexivity | right].

Section DispatcherProperties.

Variable loads : string -> outcome value.

Lemma command_received_final (st : Server) (message : string) :
  final (command_received loads message st) = st.
Proof. dispatcher_cases; reflexivity. Qed.

(** X1. Handling a frame only talks to the host.  Whatever the decoder
    answers and however the call ends, the server is left as it was, nothing
    is written to the transport, and the trace is the print of the frame
    followed by notifications only. *)
Theorem command_received_is_read_only (st : Server) (message : string) :
  final (command_received loads message st) = st /\
  writes (trace (command_received loads message st)) = [] /\
  trace (command_received loads message st) =
    Printed message
    :: raise_all (notifications (trace (command_received loads message st))).
Proof.
  split; [apply command_received_final|].
  split; dispatcher_cases; reflexivity.
Qed.

(** X2. Replaying a frame: when a frame is handled without error, handling
    it again right away returns too and raises the same effects a second
    time. *)
Theorem replay_raises_the_same (st : Server) (message : string) :
  result (command_received loads message st) = Return tt ->
  (command_received loads message ;; command_received loads message) st =
    mkRun (Return tt) st
          (trace (command_received loads message st)
           ++ trace (command_received loads message st)).
Proof.
  intros H. unfold bind. cbv zeta.
  rewrite H, !command_received_final, H. reflexivity.
Qed.

(** X3. [command_received] returns normally exactly when the decoder
    returns a value, that value has a [command] entry, and, for a tag that
    reads [data.url] or [data.index], that nested lookup succeeds. *)
Theorem command_received_returns_iff (st : Server) (message : string) :
  result (command_received loads message st) = Return tt <->
  exists y tag,
    loads message = Return y /\
    getitem y "command" = Return tag /\
    (needs_url tag = true -> exists url, data_field y "url" = Return url) /\
    (needs_index tag = true -> exists index, data_field y "index" = Return index).
Proof.
  unfold needs_url, needs_index. split.
  - rewrite command_received_cases.
    destruct (loads message) as [y|e]; [|discriminate].
    destruct (getitem y "command") as [tag|e] eqn:Hc; [|discriminate].
    intros H. exists y, tag. split; [reflexivity|]. split; [exact Hc|].
    revert H.
    destruct (eq_str tag "QueryActiveTab") eqn:E1.
    { apply eq_str_true in E1. subst tag. simpl.
      destruct (data_field y "url"); [|discriminate].
      intros _. split; [eauto|discriminate]. }
    destruct (eq_str tag "QueryTabByIndex") eqn:E2.
    { apply eq_str_true in E2. subst tag. simpl.
      destruct (data_field y "index"); [|discriminate].
      intros _. split; [discriminate|eauto]. }
    destruct (eq_str tag "ActiveTab") eqn:E3.
    { destruct (data_field y "url"); [|discriminate].
      intros _. split; [eauto|discriminate]. }
    destruct (eq_str tag "TabUpdated") eqn:E4.
    { destruct (data_field y "url"); [|discriminate].
      intros _. split; [eauto|discriminate]. }
    intros _. split; discriminate.
  - intros [y [tag [Hy [Hc [Hurl Hindex]]]]].
    rewrite command_received_cases, Hy, Hc.
    destruct (eq_str tag "QueryActiveTab") eqn:E1.
    { destruct Hurl as [url ->]; reflexivity. }
    destruct (eq_str tag "QueryTabByIndex") eqn:E2.
    { destruct Hindex as [index ->]; reflexivity. }
    destruct (eq_str tag "ActiveTab") eqn:E3.
    { destruct Hurl as [url ->]; reflexivity. }
    destruct (eq_str tag "TabUpdated") eqn:E4.
    { destruct Hurl as [url ->]; [apply orb_true_r|reflexivity]. }
    destruct (eq_str tag "CreateNewTab"); [reflexivity|].
    destruct (eq_str tag "MoveTab"); [reflexivity|].
    destruct (eq_str tag "RemoveTab"); reflexivity.
Qed.

(** X4. A frame raises at most two notifications, and every notification
    name is one of the ten names of the dispatcher (never a connection
    notification). *)
Theorem at_most_two_known_notifications (st : Server) (message : string) :
  length (notifications (trace (command_received loads message st))) <= 2 /\
  Forall (fun n => In (fst n) dispatcher_names)
         (notifications (trace (command_received loads message st))).
Proof.
  split; dispatcher_cases; simpl; try lia;
    repeat (constructor; [known_name|]); constructor.
Qed.

(** X5. Once the decoder has returned a value, the only errors that leave
    [command_received] are those of its subscripts: [TypeError], or
    [KeyError] for one of the keys command, data, url, index. *)
Theorem command_received_exceptions
    (st : Server) (message : string) (y : value) (e : exn) :
  loads message = Return y ->
  result (command_received loads message st) = Raise e ->
  e = TypeError \/ exists key, e = KeyError key /\ In key dispatcher_keys.
Proof.
  intros Hy. rewrite command_received_cases, Hy.
  assert (Hfield : forall field e',
            In field dispatcher_keys ->
            data_field y field = Raise e' ->
            e' = TypeError \/ exists key, e' = KeyError key /\ In key dispatcher_keys).
  { intros field e' Hin H. apply data_field_Raise_inv in H.
    destruct H as [H | [H | H]]; [now left| |]; right.
    - exists "data". split; [exact H|known_name].
    - exists field. split; [exact H|exact Hin]. }
  destruct (getitem y "command") as [tag|e'] eqn:Hc.
  - destruct (eq_str tag "QueryActiveTab").
    { destruct (data_field y "url") eqn:E; [discriminate|].
      intros [= <-]. apply (Hfield "url"); [known_name|exact E]. }
    destruct (eq_str tag "QueryTabByIndex").
    { destruct (data_field y "index") eqn:E; [discriminate|].
      intros [= <-]. apply (Hfield "index"); [known_name|exact E]. }
    destruct (eq_str tag "ActiveTab").
    { destruct (data_field y "url") eqn:E; [discriminate|].
      intros [= <-]. apply (Hfield "url"); [known_name|exact E]. }
    destruct (eq_str tag "TabUpdated").
    { destruct (data_field y "url") eqn:E; [discriminate|].
      intros [= <-]. apply (Hfield "url"); [known_name|exact E]. }
    destruct (eq_str tag "CreateNewTab"); [discriminate|].
    destruct (eq_str tag "MoveTab"); [discriminate|].
    destruct (eq_str tag "RemoveTab"); discriminate.
  - intros [= <-]. apply getitem_Raise in Hc. destruct Hc as [H|H]; [now left|].
    right. exists "command". split; [exact H|known_name].
Qed.

(** X6. A frame that decodes to anything but an object (a list, a string,
    a number, a boolean, null) is printed and ends in [TypeError] at the
    first subscript; nothing is raised towards the host. *)
Theorem non_object_frame_raises_TypeError
    (st : Server) (message : string) (y : value) :
  loads message = Return y ->
  (forall items, y <> VDict items) ->
  command_received loads message st =
    mkRun (Raise TypeError) st [Printed message].
Proof.
  intros Hy Hshape. rewrite command_received_cases, Hy.
  destruct y; try reflexivity.
  now contradiction (Hshape items).
Qed.

(** X7. The handler reads two entries of the decoded object and no other:
    two frames whose decoded values agree on [command] and on [data] end the
    same way and raise notifications of the same names in the same order,
    whatever else the objects hold. *)
Theorem dispatch_reads_only_command_and_data
    (st : Server) (message message' : string) (y y' : value) :
  loads message = Return y ->
  loads message' = Return y' ->
  getitem y "command" = getitem y' "command" ->
  getitem y "data" = getitem y' "data" ->
  observed (command_received loads message st) =
  observed (command_received loads message' st).
Proof.
  intros Hy Hy' Hc Hd.
  assert (Hfield : forall field, data_field y field = data_field y' field).
  { intros field. unfold data_field. now rewrite Hd. }
  rewrite !command_received_cases, Hy, Hy', Hc, !Hfield.
  dispatcher_cases; reflexivity.
Qed.

End DispatcherProperties.

(** ** Sessions, routing and the plugin's life cycle *)

Lemma writes_app (t t' : list effect) :
  writes (t ++ t') = (writes t ++ writes t')%list.
Proof.
  induction t as [|e t IH]; [reflexivity|].
  destruct e; simpl; now rewrite IH.
Qed.

Lemma writes_raise_all (ns : list (string * value)) : writes (raise_all ns) = [].
Proof. induction ns as [|n ns IH]; [reflexivity|exact IH]. Qed.

Lemma run_session_run (evs : list session_event) (st : Server) :
  run_session evs st =
    mkRun (Return tt)
          (mkServer (_thread st) (fold_left track evs (_connected_client st))
                    (base_initialised st))
          (raise_all (map lifecycle_notification evs)).
Proof.
  revert st. induction evs as [|ev evs IH]; intros st.
  - destruct st; reflexivity.
  - simpl run_session. unfold bind. cbv zeta.
    destruct ev; simpl; rewrite IH; reflexivity.
Qed.

(** X8. The connection callbacks only notify the host and update the
    registry: over any sequence of connects and disconnects they all
    return, raise one Browser.Connected or Browser.Disconnected notification
    per event in the order of the events and nothing else, write nothing to
    the transport, and leave the thread reference and the base server as
    they were. *)
Theorem run_session_notifies_per_event (evs : list session_event) (st : Server) :
  result (run_session evs st) = Return tt /\
  trace (run_session evs st) = raise_all (map lifecycle_notification evs) /\
  notifications (trace (run_session evs st)) = map lifecycle_notification evs /\
  writes (trace (run_session evs st)) = [] /\
  _thread (final (run_session evs st)) = _thread st /\
  base_initialised (final (run_session evs st)) = base_initialised st.
Proof.
  rewrite run_session_run. simpl.
  rewrite notifications_raise_all, writes_raise_all. repeat split.
Qed.

Lemma bind_Return_run {A B : Type} (m : M A) (k : A -> M B)
    (st : Server) (a : A) (st' : Server) (t : list effect) (r : Run B) :
  m st = mkRun (Return a) st' t ->
  k a st' = r ->
  bind m k st = mkRun (result r) (final r) (t ++ trace r).
Proof.
  intros Hm Hk. unfold bind. rewrite Hm. simpl. now rewrite Hk.
Qed.

Section CallProperties.

Variable ParseString : string -> string.

Variable loads : string -> outcome value.

Lemma call_run (a : action) (st : Server) :
  call ParseString a st =
    match _connected_client st with
    | Some c =>
        mkRun (Return tt) st
              [Sent (client_handler c) (Json.dumps (message_of ParseString a))]
    | None => mkRun (Return tt) st []
    end.
Proof. unfold call. apply send_run. Qed.

Lemma run_actions_attached (acts : list action) (st : Server) (c : client) :
  _connected_client st = Some c ->
  run_actions ParseString acts st =
    mkRun (Return tt) st
          (map (fun a => Sent (client_handler c)
                              (Json.dumps (message_of ParseString a))) acts).
Proof.
  intros Hc. induction acts as [|a acts IH]; [reflexivity|].
  simpl run_actions. unfold bind. cbv zeta.
  rewrite call_run, Hc. simpl. rewrite IH. reflexivity.
Qed.

Lemma run_actions_detached (acts : list action) (st : Server) :
  _connected_client st = None ->
  run_actions ParseString acts st = mkRun (Return tt) st [].
Proof.
  intros Hc. induction acts as [|a acts IH]; [reflexivity|].
  simpl run_actions. unfold bind. cbv zeta.
  rewrite call_run, Hc. simpl. rewrite IH. reflexivity.
Qed.

(** X9. While one peer stays attached, a series of action calls writes
    exactly one text per call to that peer's handler, in the order of the
    calls, each the [json.dumps] of the action's message; every call
    returns and the server state is unchanged. *)
Theorem actions_are_written_in_order
    (acts : list action) (st : Server) (c : client) :
  _connected_client st = Some c ->
  run_actions ParseString acts st =
    mkRun (Return tt) st
          (map (fun a => Sent (client_handler c)
                              (Json.dumps (message_of ParseString a))) acts) /\
  writes (trace (run_actions ParseString acts st)) =
    map (fun a => (client_handler c, Json.dumps (message_of ParseString a))) acts.
Proof.
  intros Hc. rewrite (run_actions_attached acts st c Hc).
  split; [reflexivity|]. simpl.
  induction acts as [|a acts IH]; [reflexivity|].
  simpl. now rewrite IH.
Qed.

Lemma deliver_step (i : invocation) (rest : list invocation) (st : Server) :
  deliver ParseString loads (i :: rest) st =
    (fst (deliver ParseString loads rest (final (invoke ParseString loads i st))),
     (trace (invoke ParseString loads i st)
      ++ snd (deliver ParseString loads rest
                      (final (invoke ParseString loads i st))))%list).
Proof.
  simpl.
  destruct (deliver ParseString loads rest
                    (final (invoke ParseString loads i st))); reflexivity.
Qed.

Lemma command_received_writes (st : Server) (message : string) :
  writes (trace (command_received loads message st)) = [].
Proof. dispatcher_cases; reflexivity. Qed.

(** X10. The server is a one-slot router.  Over any history of calls into
    the plugin (connects, disconnects, inbound frames whether well-formed
    or not, actions), each started from the state the previous one left:
    the peer tracked at the end is the one of the last connect with no
    disconnect after it; the transport writes are exactly one per action
    called while a peer was tracked, to the peer tracked at that moment, in
    order; inbound frames change neither. *)
Theorem deliver_is_one_slot_router (history : list invocation) (st : Server) :
  current (fst (deliver ParseString loads history st)) =
    tracked (current st) history /\
  writes (snd (deliver ParseString loads history st)) =
    routed ParseString (current st) history /\
  _thread (fst (deliver ParseString loads history st)) = _thread st /\
  base_initialised (fst (deliver ParseString loads history st)) =
    base_initialised st.
Proof.
  revert st. induction history as [|i rest IH]; intros st.
  - repeat split.
  - rewrite deliver_step. cbn [fst snd]. rewrite writes_app.
    destruct (IH (final (invoke ParseString loads i st)))
      as [Hcur [Hw [Ht Hb]]].
    rewrite Hcur, Hw, Ht, Hb. clear IH Hcur Hw Ht Hb.
    destruct i as [c|c|c message|a]; simpl invoke.
    + repeat split.
    + repeat split.
    + unfold message_received.
      rewrite command_received_final, command_received_writes. repeat split.
    + rewrite call_run. unfold current.
      destruct (_connected_client st) as [c|] eqn:E; simpl;
        unfold current; rewrite E; repeat split.
Qed.

(** X11. A full life cycle: the plugin starts, peers connect and
    disconnect in any order, the plugin stops, and the host goes on calling
    actions.  Every call returns; the calls after the stop write nothing,
    whoever was attached before; the server ends with no thread reference
    and no peer. *)
Theorem commands_after_stop_are_dropped
    (evs : list session_event) (acts : list action) (st : Server) :
  (__start__ true ;; run_session evs ;; __stop__ ;; run_actions ParseString acts) st =
    mkRun (Return tt) (mkServer None None true)
          (Initialised 8000 "localhost" :: ThreadStarted
           :: raise_all (map lifecycle_notification evs) ++ [ShutdownCalled]).
Proof.
  assert (Hstop : forall t cl,
            (__stop__ ;; run_actions ParseString acts) (mkServer t cl true) =
              mkRun (Return tt) (mkServer None None true) [ShutdownCalled]).
  { intros t cl.
    apply (bind_Return_run _ _ _ tt (mkServer None None true) [ShutdownCalled]
             (mkRun (Return tt) (mkServer None None true) [])).
    - reflexivity.
    - now apply run_actions_detached. }
  assert (Hsession : forall t cl,
            (run_session evs ;; __stop__ ;; run_actions ParseString acts)
              (mkServer t cl true) =
              mkRun (Return tt) (mkServer None None true)
                    (raise_all (map lifecycle_notification evs)
                     ++ [ShutdownCalled])).
  { intros t cl.
    apply (bind_Return_run _ _ _ tt
             (mkServer t (fold_left track evs cl) true)
             (raise_all (map lifecycle_notification evs))
             (mkRun (Return tt) (mkServer None None true) [ShutdownCalled])).
    - apply run_session_run.
    - apply Hstop. }
  destruct st as [t cl b].
  apply (bind_Return_run _ _ _ tt (mkServer (Some run_forever_thread) cl true)
           [Initialised 8000 "localhost"; ThreadStarted]
           (mkRun (Return tt) (mkServer None None true)
                  (raise_all (map lifecycle_notification evs)
                   ++ [ShutdownCalled]))).
  - reflexivity.
  - apply Hsession.
Qed.

(** X12. [start] initialises before it spawns.  When the listening socket
    cannot be bound, the error leaves [start] (and the plugin's start hook)
    with the initialisation as the only effect: no thread is created, the
    thread reference and the tracked peer are as they were, and the base
    server's attributes exist, since the library creates them before it
    binds.  When the socket can be bound, the thread is started after the
    initialisation and the tracked peer is kept as it was. *)
Theorem start_binds_before_it_spawns (st : Server) (host : string) (port : Z) :
  start false host port st =
    mkRun (Raise SocketError)
          (mkServer (_thread st) (_connected_client st) true)
          [Initialised port host] /\
  __start__ false st =
    mkRun (Raise SocketError)
          (mkServer (_thread st) (_connected_client st) true)
          [Initialised 8000 "localhost"] /\
  start true host port st =
    mkRun (Return tt)
          (mkServer (Some run_forever_thread) (_connected_client st) true)
          [Initialised port host; ThreadStarted].
Proof. destruct st; repeat split. Qed.

(** X13. String expansion touches the URL argument and nothing else: the
    message of an action depends on [eg.ParseString] only through its value
    at that action's URL; an action without a URL argument builds the same
    message under any expansion. *)
Theorem message_depends_on_url_expansion_only
    (ParseString' : string -> string) (a : action) :
  (forall url, action_url a = Some url -> ParseString url = ParseString' url) ->
  message_of ParseString a = message_of ParseString' a.
Proof.
  intros H. destruct a; try reflexivity; simpl;
    unfold NewTab_message, UpdateTab_message;
    rewrite (H value1 eq_refl); reflexivity.
Qed.

(** X14. The command tag identifies the action class: two actions send the
    same [command] entry exactly when they are calls of the same class,
    whatever their arguments. *)
Theorem command_tag_identifies_class
    (ParseString' : string -> string) (a b : action) :
  getitem (message_of ParseString a) "command" =
  getitem (message_of ParseString' b) "command" <->
  same_class a b = true.
Proof.
  destruct a, b; simpl; split; intros H; try reflexivity; discriminate H.
Qed.

End CallProperties.

(** ** The added properties on concrete inputs *)

Lemma replay_raises_the_same_witness :
  (command_received Json.loads Examples.frame_QueryActiveTab ;;
   command_received Json.loads Examples.frame_QueryActiveTab) Examples.attached =
    mkRun (Return tt) Examples.attached
          (trace (command_received Json.loads Examples.frame_QueryActiveTab
                                   Examples.attached)
           ++ trace (command_received Json.loads Examples.frame_QueryActiveTab
                                      Examples.attached)).
Proof.
  apply (replay_raises_the_same Json.loads Examples.attached
           Examples.frame_QueryActiveTab).
  vm_compute. reflexivity.
Defined.

Lemma command_received_returns_iff_witness :
  result (command_received Json.loads Examples.frame_QueryActiveTab
                           Examples.attached) = Return tt.
Proof.
  apply (proj2 (command_received_returns_iff Json.loads Examples.attached
                  Examples.frame_QueryActiveTab)).
  exists (VDict [("command", VStr "QueryActiveTab");
                 ("data", VDict [("url", VStr "http://x")])]).
  exists (VStr "QueryActiveTab").
  split; [vm_compute; reflexivity|].
  split; [reflexivity|].
  split.
  - intros _. exists (VStr "http://x"). reflexivity.
  - intros H. vm_compute in H. discriminate H.
Defined.

Lemma command_received_exceptions_witness :
  KeyError "command" = TypeError \/
  exists key, KeyError "command" = KeyError key /\ In key dispatcher_keys.
Proof.
  apply (command_received_exceptions Json.loads Examples.attached
           Examples.frame_no_command (VDict [("data", VDict [])])
           (KeyError "command")).
  - vm_compute. reflexivity.
  - vm_compute. reflexivity.
Defined.

Lemma non_object_frame_raises_TypeError_witness :
  command_received Json.loads Frames.a_list Examples.attached =
    mkRun (Raise TypeError) Examples.attached [Printed Frames.a_list].
Proof.
  apply (non_object_frame_raises_TypeError Json.loads Examples.attached
           Frames.a_list (VList [VInt 1; VInt 2])).
  - vm_compute. reflexivity.
  - intros items H. discriminate H.
Defined.

Lemma dispatch_reads_only_command_and_data_witness :
  observed (command_received Json.loads Examples.frame_QueryActiveTab
                             Examples.attached) =
  observed (command_received Json.loads Frames.QueryActiveTab_with_id
                             Examples.attached).
Proof.
  apply (dispatch_reads_only_command_and_data Json.loads Examples.attached
           Examples.frame_QueryActiveTab Frames.QueryActiveTab_with_id
           (VDict [("command", VStr "QueryActiveTab");
                   ("data", VDict [("url", VStr "http://x")])])
           (VDict [("id", VInt 7); ("command", VStr "QueryActiveTab");
                   ("data", VDict [("url", VStr "http://x")])])).
  - vm_compute. reflexivity.
  - vm_compute. reflexivity.
  - reflexivity.
  - reflexivity.
Defined.

Lemma actions_are_written_in_order_witness :
  writes (trace (run_actions (fun s => s)
                   [QueryActiveTab; QueryTabByIndex (VInt 2)]
                   Examples.attached)) =
    [(7, Json.dumps (VDict [("command", VStr "QueryActiveTab")]));
     (7, Json.dumps (VDict [("command", VStr "QueryTabByIndex");
                            ("data", VInt 2)]))].
Proof.
  apply (actions_are_written_in_order (fun s => s)
           [QueryActiveTab; QueryTabByIndex (VInt 2)]
           Examples.attached Examples.peer).
  reflexivity.
Defined.

Lemma message_depends_on_url_expansion_only_witness :
  message_of (fun s => s) (MoveTab (VInt 1) (VInt 2) (VInt 5)) =
  message_of (fun _ => "expanded") (MoveTab (VInt 1) (VInt 2) (VInt 5)).
Proof.
  apply (message_depends_on_url_expansion_only (fun s => s)
           (fun _ => "expanded") (MoveTab (VInt 1) (VInt 2) (VInt 5))).
  intros url H. discriminate H.
Defined.

(** A history on concrete peers: the first peer is displaced, a malformed
    frame arrives, and the one action called while a peer is tracked goes to
    the second peer. *)
Example routing_history :
  writes (snd (deliver (fun s => s) Json.loads
                 [on_action QueryActiveTab;
                  on_new_client Examples.peer;
                  on_new_client Examples.other_peer;
                  on_message Examples.peer Examples.frame_not_json;
                  on_action QueryActiveTab;
                  on_client_left Examples.peer;
                  on_action QueryActiveTab]
                 Examples.started)) =
    [(9, Json.dumps (VDict [("command", VStr "QueryActiveTab")]))].
Proof. vm_compute. reflexivity. Qed.

(** X15. Building the message loses nothing: when string expansion is
    one-to-one, two registered actions that build the same message are the
    same action with the same arguments. *)
Theorem message_of_is_injective
    (ParseString : string -> string) (a b : action) :
  (forall u v, ParseString u = ParseString v -> u = v) ->
  message_of ParseString a = message_of ParseString b ->
  a = b.
Proof.
  intros Hinj.
  destruct a, b; simpl;
    unfold NewTab_message, UpdateTab_message, ReloadTab_message,
           MoveTab_message, RemoveTab_message, QueryTabByIndex_message,
           QueryActiveTab_message;
    intros H; try discriminate H; try reflexivity;
    injection H; intros; subst; f_equal; now apply Hinj.
Qed.

Lemma message_of_is_injective_witness :
  ReloadTab (VInt 1) (VInt 4) (VBool true) = ReloadTab (VInt 1) (VInt 4) (VBool true).
Proof.
  apply (message_of_is_injective (fun s => s)
           (ReloadTab (VInt 1) (VInt 4) (VBool true))
           (ReloadTab (VInt 1) (VInt 4) (VBool true))).
  - intros u v H. exact H.
  - reflexivity.
Defined.
